(** * Presentational components of the website: markup, class composition
      and content metadata

    A shallow embedding of the React components [SocialCTA], [ShipInHours],
    [Header] and the [Terms] page, together with the front-matter of the
    blog posts.  A component is a function from its props and the values of
    the hooks it reads to the React element tree that its JSX denotes. *)

From Stdlib Require Import Ascii String QArith Lqa.
From stdpp Require Import base strings list gmap.

Local Open Scope string_scope.
Local Open Scope list_scope.

Set Warnings "-register-all".

(** ** React elements *)

(** The value of a JSX attribute.  [PElement] is an element passed as a prop
    ([title={<span>...</span>}]), [PStyle] a style object whose entries are
    motion values, [PRef] a forwarded ref, [PTrue] an attribute written
    without a value ([center]). *)
Inductive PropValue (N : Type) : Type :=
  | PString (s : string)
  | PUndefined
  | PTrue
  | PElement (n : N)
  | PStyle (entries : list (string * Q))
  | PRef (r : option nat).

Arguments PString {N} s.
Arguments PUndefined {N}.
Arguments PTrue {N}.
Arguments PElement {N} n.
Arguments PStyle {N} entries.
Arguments PRef {N} r.

(** A React element: the element type (a host tag such as [a] or a component
    such as [Container]), its props in source order, and its children. *)
Inductive Node : Type :=
  | Text (s : string)
  | Element (type : string) (props : list (string * PropValue Node))
            (children : list Node).

Definition Props := list (string * PropValue Node).

(** Lookup of a prop by name, first occurrence. *)
Fixpoint prop (name : string) (ps : Props) : option (PropValue Node) :=
  match ps with
  | [] => None
  | (k, v) :: r => if String.eqb k name then Some v else prop name r
  end.

Definition node_props (n : Node) : Props :=
  match n with
  | Text _ => []
  | Element _ ps _ => ps
  end.

Definition node_children (n : Node) : list Node :=
  match n with
  | Text _ => []
  | Element _ _ ch => ch
  end.

Definition node_type (n : Node) : option string :=
  match n with
  | Text _ => None
  | Element ty _ _ => Some ty
  end.

(** The string value of a prop, when it has one. *)
Definition string_prop (name : string) (n : Node) : option string :=
  match prop name (node_props n) with
  | Some (PString s) => Some s
  | _ => None
  end.

(** All elements of a tree in document order, the elements passed as props
    included. *)
Fixpoint elements (n : Node) : list Node :=
  match n with
  | Text _ => []
  | Element _ ps ch =>
      n :: (fix in_props (l : Props) : list Node :=
              match l with
              | [] => []
              | (_, PElement m) :: r => elements m ++ in_props r
              | _ :: r => in_props r
              end) ps
        ++ (fix in_children (l : list Node) : list Node :=
              match l with
              | [] => []
              | m :: r => elements m ++ in_children r
              end) ch
  end.

Definition has_type (ty : string) (n : Node) : bool :=
  match node_type n with
  | Some t => String.eqb t ty
  | None => false
  end.

(** The anchors of a tree. *)
Definition anchors (n : Node) : list Node :=
  List.filter (has_type "a") (elements n).

(** The text content of a tree, children only. *)
Fixpoint text_content (n : Node) : string :=
  match n with
  | Text s => s
  | Element _ _ ch =>
      (fix go (l : list Node) : string :=
         match l with
         | [] => ""
         | m :: r => text_content m +:+ go r
         end) ch
  end.

(** The rendering outcome of a component: the markup it returns, or the
    error it throws. *)
Inductive Rendered : Type :=
  | Markup (n : Node)
  | Threw (error : string).

(** ** JavaScript values used by the components *)

(** The string a template literal puts in place of [${e}] when [e] is a
    string or [undefined]. *)
Definition template_string (v : option string) : string :=
  match v with
  | Some s => s
  | None => "undefined"
  end.

(** An optional string passed as an attribute. *)
Definition optional_string (v : option string) : PropValue Node :=
  match v with
  | Some s => PString s
  | None => PUndefined
  end.

(** ** Class names *)

Module Classes.

(** ASCII whitespace, which separates the classes of a [class]
    attribute: space, tab, line feed, form feed, carriage return. *)
Definition is_space (a : ascii) : bool :=
  Ascii.eqb a " "%char || Ascii.eqb a "009"%char || Ascii.eqb a "010"%char
  || Ascii.eqb a "012"%char || Ascii.eqb a "013"%char.

Definition flush (cur : string) : list string :=
  match cur with
  | "" => []
  | _ => [cur]
  end.

Fixpoint tokens_from (cur s : string) : list string :=
  match s with
  | "" => flush cur
  | String a r =>
      if is_space a then flush cur ++ tokens_from "" r
      else tokens_from (cur +:+ String a "") r
  end.

(** The class list of a class string: its whitespace-separated tokens, in
    order. *)
Definition class_list (s : string) : list string := tokens_from "" s.

Definition mem (t : string) (l : list string) : bool :=
  existsb (String.eqb t) l.

Definition subset (wanted have : list string) : bool :=
  forallb (fun t => mem t have) wanted.

Definition disjoint (l1 l2 : list string) : bool :=
  forallb (fun t => negb (mem t l2)) l1.

Definition difference (l1 l2 : list string) : list string :=
  List.filter (fun t => negb (mem t l2)) l1.

(** [has_classes cls wanted]: every class of the string [wanted] is in the
    class list of [cls]. *)
Definition has_classes (cls wanted : string) : bool :=
  subset (class_list wanted) (class_list cls).

(** [changes_only allowed cls1 cls2]: a class that is in one of the two
    class strings and not in the other satisfies [allowed]. *)
Definition changes_only (allowed : string -> bool) (cls1 cls2 : string)
    : Prop :=
  forall t,
    mem t (class_list cls1) <> mem t (class_list cls2) -> allowed t = true.

(** The utility of a Tailwind class: what follows its variant prefixes
    ([dark:], [lg:], ...), a colon inside square brackets not counting. *)
Fixpoint utility_from (depth : nat) (cur s : string) : string :=
  match s with
  | "" => cur
  | String a r =>
      if Ascii.eqb a ":"%char then
        match depth with
        | O => utility_from O "" r
        | _ => utility_from depth (cur +:+ String a "") r
        end
      else if Ascii.eqb a "["%char then
        utility_from (S depth) (cur +:+ String a "") r
      else if Ascii.eqb a "]"%char then
        utility_from (Nat.pred depth) (cur +:+ String a "") r
      else utility_from depth (cur +:+ String a "") r
  end.

Definition utility (t : string) : string := utility_from O "" t.

Definition is_background (t : string) : bool :=
  String.prefix "bg-" (utility t).

Definition is_backdrop_blur (t : string) : bool :=
  String.prefix "backdrop-blur" (utility t).

Definition is_left_offset (t : string) : bool :=
  String.prefix "left-" (utility t).

End Classes.

(** ** clsx *)

Module Clsx.

(** The arguments the components pass to [clsx]: a string, a boolean (the
    value of [cond && "..."] when [cond] is false) or [undefined]. *)
Inductive ClassValue : Type :=
  | CString (s : string)
  | CBoolean (b : bool)
  | CUndefined.

Definition truthy (v : ClassValue) : bool :=
  match v with
  | CString "" => false
  | CString _ => true
  | CBoolean b => b
  | CUndefined => false
  end.

Definition toVal (v : ClassValue) : string :=
  match v with
  | CString s => s
  | _ => ""
  end.

Definition nonempty (s : string) : bool :=
  match s with
  | "" => false
  | _ => true
  end.

Definition step (str : string) (tmp : ClassValue) : string :=
  if truthy tmp then
    let x := toVal tmp in
    if nonempty x then
      (if nonempty str then str +:+ " " else str) +:+ x
    else str
  else str.

(** Modelled from the spec: the [clsx] function of the npm package of the
    same name, which the components import and which is not part of the
    sources; it does the conditional class composition: the arguments
    that are non-empty strings, in order, joined by single spaces. *)
Definition clsx (args : list ClassValue) : string :=
  fold_left step args "".

(** JavaScript's [cond && "str"]. *)
Definition and_then (cond : bool) (s : string) : ClassValue :=
  if cond then CString s else CBoolean false.

(** An optional string prop passed as an argument. *)
Definition optional (v : option string) : ClassValue :=
  match v with
  | Some s => CString s
  | None => CUndefined
  end.

End Clsx.

(** ** Motion values *)

Module Motion.

Local Open Scope Q_scope.

Definition clamp (min max v : Q) : Q :=
  if negb (Qle_bool v max) then max
  else if negb (Qle_bool min v) then min
  else v.

Definition progress (from to value : Q) : Q :=
  let toFromDifference := to - from in
  if Qeq_bool toFromDifference 0 then 1
  else (value - from) / toFromDifference.

Definition mix (from to p : Q) : Q := from + (to - from) * p.

(** Modelled from the spec: [useTransform] of the framer-motion package,
    which [Header] imports and which is not part of the sources.  For a
    two-point input range and a two-point output range it is the linear
    interpolation of the value from the input range to the output range,
    the value clamped to the input range first.  Opacities are rationals
    here.  Other shapes of ranges are not used by the sources and leave
    the value as it is. *)
Definition useTransform (value : Q) (inputRange outputRange : list Q) : Q :=
  match inputRange, outputRange with
  | [i0; i1], [o0; o1] => mix o0 o1 (progress i0 i1 (clamp i0 i1 value))
  | _, _ => value
  end.

End Motion.

(** ** shared/Home/SocialCTA.tsx *)

Module SocialCTA.

Definition SocialCTA (_ : unit) : Rendered :=
  Markup
    (Element "div" []
      [Element "Container"
        [("className", PString "my-10 lg:mt-20 lg:mb-12 flex flex-col md:flex-row gap-8 lg:gap-12")]
        [Element "div" [("className", PString "w-full lg:w-1/2 ")]
          [Element "div"
            [("className", PString "bg-[#5765f2] rounded flex items-center justify-center  text-white h-[140px] lg:h-[200px]")]
            [Element "Discord" [("size", PString "4em")] []];
           Element "h4"
            [("className", PString "lg:px-8 mt-4 lg:mt-8 mb-2 text-lg text-white")]
            [Text "Join our Discord community"];
           Element "p"
            [("className", PString "lg:px-8 text-slate-400 text-sm")]
            [Text "Join our Discord community to share feedback, get updates, and have a direct line to shaping the future of the SDK!"];
           Element "a"
            [("href", PString "/docs?ref=homepage-hero");
             ("className", PString "lg:mx-6  mt-3 lg:mt-6 inline-flex rounded-full text-sm font-medium px-6 py-2 bg-slate-800 hover:bg-slate-700 transition-all text-white")]
            [Text "Join the community"]];
         Element "div" [("className", PString "w-full lg:w-1/2")]
          [Element "div"
            [("className", PString "bg-slate-800 rounded flex items-center justify-center  text-white h-[140px] lg:h-[200px]")]
            [Element "Github" [("size", PString "4em")] []];
           Element "h4"
            [("className", PString "lg:px-8 mt-4 lg:mt-8 mb-2 text-lg text-white")]
            [Text "Open Source"];
           Element "p"
            [("className", PString "lg:px-8 text-slate-400 text-sm")]
            [Text "Inngest's core is open source, giving you piece of mind."];
           Element "a"
            [("href", PString "/docs?ref=homepage-hero");
             ("className", PString "lg:mx-6  mt-3 lg:mt-6 inline-flex rounded-full text-sm font-medium px-6 py-2 bg-slate-800 hover:bg-slate-700 transition-all text-white")]
            [Text "View Project"]]]]).

End SocialCTA.

(** ** shared/Home/ShipInHours.tsx *)

Module ShipInHours.

(** One of the six blurred discs behind the section. *)
Definition disc (className : string) : Node :=
  Element "div" [("className", PString className)] [].

(** One of the three columns of selling points. *)
Definition point (title body : string) : Node :=
  Element "div" []
    [Element "h3" [("className", PString "font-semibold text-xl mb-4")] [Text title];
     Element "p" [("className", PString "text-slate-200")] [Text body]].

(** One of the six logo anchors. *)
Definition logo (href className src : string) : Node :=
  Element "a" [("href", PString href); ("className", PString className)]
    [Element "img" [("className", PString "max-w-[140px]"); ("src", PString src)] []].

Definition ShipInHours (_ : unit) : Rendered :=
  Markup
    (Element "div" [("className", PString "overflow-x-hidden pb-60 -mb-60")]
      [Element "div" []
        [Element "Container" [("className", PString "mt-6 mb-30 relative z-30")]
          [Element "SectionHeader"
            [("center", PTrue);
             ("pre", PString "Built for every developer");
             ("title", PElement
                (Element "span"
                  [("className", PString "gap-2 items-end text-slate-200 font-medium text-2xl lg:text-4xl xl:text-5xl mb-4 tracking-tighter text-center")]
                  [Text "Ship in hours, not months"]))]
            [];
           Element "div" [("className", PString "flex justify-center")]
            [Element "p"
              [("className", PString "text-center max-w-md lg:max-w-xl mt-4 text-slate-200")]
              [Text "Build background jobs, scheduled jobs, and workflows by adding our SDK to your existing codebase and redeploying to your current platform.  Think in code without worrying about infra, queues, and config."]];
           Element "div"
            [("className", PString "
            my-20 grid xl:grid-cols-3 grid-cols-1 lg:gap-20 py-20 xl:pl-20 px-6
            bg-slate-900/70 backdrop-blur-sm rounded-xl
          ")]
            [Element "div" [("className", PString "flex flex-col justify-stretch items-center h-full")]
              [Element "div" [("className", PString "text-center pb-20")]
                [Element "p" [("className", PString "font-semibold text-xl mb-4")] [Text "With Inngest"];
                 Element "p" [] [Text "Write and deploy workflows as functions — everything else is done for you."]];
               Element "div" [("className", PString "flex items-center flex-1")]
                [Element "img"
                  [("src", PString "/assets/with-inngest.svg");
                   ("alt", PString "With Inngest");
                   ("className", PString "lg:max-w-[210px] max-w-full")]
                  []]];
             Element "div" [("className", PString "col-span-2 flex flex-col items-center justify-center")]
              [Element "div" [("className", PString "text-center max-w-[400px] m-auto pb-20")]
                [Element "p" [("className", PString "font-semibold text-xl mb-4")] [Text "Without Inngest"];
                 Element "p" [] [Text "Provision queues, handlers, and glue code for each job in a workflow, with everything handled manually."]];
               Element "img"
                [("src", PString "/assets/without-inngest.svg");
                 ("alt", PString "With Inngest");
                 ("className", PString "lg:max-w-[540px] max-w-full")]
                []]];
           Element "div"
            [("className", PString "w-screen max-w-screen relative md:-mt-20 lg:-mt-32 xl:-mt-[600px] xl:mb-[600px] z-20 opacity-50 pointer-events-none")]
            [disc " blur-3xl w-[200px] md:w-[400px] lg:w-[500px] h-[200px] md:h-[400px] lg:h-[500px] bg-sky-500/20 absolute rounded-full left-1/2 -translate-x-[20%] translate-y-[40%] ";
             disc " blur-3xl w-[200px] md:w-[450px] lg:w-[550px] h-[200px] md:h-[450px] lg:h-[550px] bg-indigo-500/30 absolute rounded-full left-1/2 -translate-x-[100%] translate-y-[40%] ";
             disc " blur-3xl w-[200px] md:w-[300px] lg:w-[400px] h-[200px] md:h-[300px] lg:h-[400px] bg-purple-500/30 absolute rounded-full left-1/2 translate-x-[50%] translate-y-[40%] ";
             disc " blur-3xl w-[200px] md:w-[400px] lg:w-[500px] h-[200px] md:h-[400px] lg:h-[500px] bg-indigo-500/10 absolute rounded-full bottom-0 left-1/2 -translate-x-[20%] -translate-y-[62%] ";
             disc " blur-3xl w-[200px] md:w-[400px] lg:w-[550px] h-[200px] md:h-[400px] lg:h-[550px] bg-purple-500/10 absolute rounded-full bottom-0 left-1/2 -translate-x-[100%] translate-y-[50%] ";
             disc " blur-3xl w-[200px] md:w-[200px] lg:w-[400px] h-[200px] md:h-[200px] lg:h-[400px] bg-blue-500/10 absolute rounded-full bottom-0 left-1/2 translate-x-[50%] translate-y-[6%] ";
             Element "div" [("className", PString "overflow-x-hidden overflow-y-hidden w-screen")] []];
           Element "div"
            [("className", PString "grid xl:grid-cols-3 xl:gap-20 gap-y-20 mb-20 lg:grid-cols-1 mt-20 xl:px-32")]
            [point "Focus on functions"
               "Develop faster by working only on your business logic.  We take care of the hard stuff for you, including retries, concurrency, throttling, rate limiting, and failure replay.";
             point "Simple and powerful primitives"
               "Write long-running workflows without learning distributed systems with a single line of the SDK, on any platform – even serverless functions.";
             point "Any framework, any platform"
               "Drop the SDK into your existing codebase and deploy to your current cloud, using your current CI/CD process."];
           Element "div" [("className", PString "pt-12")]
            [Element "p" [("className", PString "text-sm text-center text-gray-400")]
              [Text "Works with all the frameworks and platforms you already use:"]];
           Element "div"
            [("className", PString "flex items-end lg:flex-row justify-evenly xl:justify-center w-full m-auto flex-wrap my-8")]
            [logo "/docs/sdk/serve?ref=homepage-fits-your-workflow#framework-next-js"
               "flex w-1/2 max-w-[140px] hover:scale-110 transition-all duration-150 opacity-50 hover:opacity-100"
               "/assets/homepage/send-events/next-js.png";
             logo "/docs/sdk/serve?ref=homepage-fits-your-workflow#framework-express"
               "flex w-1/2 max-w-[140px] hover:scale-110 transition-all duration-150 opacity-50 hover:opacity-100"
               "/assets/homepage/send-events/express.png";
             logo "/docs/sdk/serve?ref=homepage-fits-your-workflow#framework-redwood"
               "flex w-1/2 max-w-[140px] hover:scale-110 transition-all duration-150 opacity-50 hover:opacity-100"
               "/assets/homepage/send-events/redwood.png";
             logo "/docs/deploy/vercel?ref=homepage-fits-your-workflow"
               "flex w-1/2 md:w-1/3 max-w-[140px] hover:scale-110 transition-all duration-150 opacity-50 hover:opacity-100"
               "/assets/homepage/send-events/vercel.png";
             logo "/docs/deploy/netlify?ref=homepage-fits-your-workflow"
               "flex w-1/2 md:w-1/3 max-w-[140px] hover:scale-110 transition-all duration-150 opacity-50 hover:opacity-100"
               "/assets/homepage/send-events/netlify.png";
             logo "/docs/deploy/cloudflare?ref=homepage-fits-your-workflow"
               "flex w-1/2 md:w-1/3 max-w-[140px] hover:scale-110 transition-all duration-150 opacity-50 hover:opacity-100"
               "/assets/homepage/send-events/cloudflare-pages.png"]]]]).

End ShipInHours.

(** ** shared/Docs/Header.tsx *)

Module Header.

Record HeaderProps : Type := { className : option string }.

(** What the hooks called by [Header] return: the [isOpen] field of the
    mobile navigation store, whether the header is rendered inside the
    mobile navigation, and the current value of the [scrollY] motion
    value. *)
Record Hooks : Type := {
  useMobileNavigationStore_isOpen : bool;
  useIsInsideMobileNavigation : bool;
  useScroll_scrollY : Q
}.

(** The classes the caller passes: those of [className], none when it is
    left out. *)
Definition caller_classes (props : HeaderProps) : string :=
  match className props with
  | Some s => s
  | None => ""
  end.

Definition TopLevelNavItem (href : PropValue Node) (children : list Node) : Rendered :=
  Markup
    (Element "li" []
      [Element "a"
        [("href", href);
         ("className", PString "text-sm leading-5 text-slate-600 transition hover:text-slate-900 dark:text-slate-400 dark:hover:text-white")]
        children]).

(** [Header props ref hooks env]: [ref] is the forwarded ref and [env] is
    [process.env]. *)
Definition Header (props : HeaderProps) (ref : option nat) (hooks : Hooks)
    (env : gmap string string) : Rendered :=
  let mobileNavIsOpen := useMobileNavigationStore_isOpen hooks in
  let isInsideMobileNavigation := useIsInsideMobileNavigation hooks in
  let scrollY := useScroll_scrollY hooks in
  let bgOpacityLight := Motion.useTransform scrollY [0; 72]%Q [0.5; 0.9]%Q in
  let bgOpacityDark := Motion.useTransform scrollY [0; 72]%Q [0.2; 0.8]%Q in
  Markup
    (Element "motion.div"
      [("ref", PRef ref);
       ("className", PString (Clsx.clsx
          [Clsx.optional (className props);
           Clsx.CString "fixed inset-x-0 top-0 z-50 flex h-14 items-center justify-between gap-12 px-4 transition sm:px-6 lg:z-30 lg:px-8";
           Clsx.and_then (negb isInsideMobileNavigation)
             "backdrop-blur-sm dark:backdrop-blur lg:left-72 xl:left-80";
           Clsx.CString
             (if isInsideMobileNavigation
              then "bg-white dark:bg-slate-900"
              else "bg-white/[var(--bg-opacity-light)] dark:bg-slate-950/[var(--bg-opacity-dark)]")]));
       ("style", PStyle
          [("--bg-opacity-light", bgOpacityLight);
           ("--bg-opacity-dark", bgOpacityDark)])]
      [Element "div"
        [("className", PString (Clsx.clsx
           [Clsx.CString "absolute inset-x-0 top-full h-px transition";
            Clsx.and_then (isInsideMobileNavigation || negb mobileNavIsOpen)
              "bg-slate-900/7.5 dark:bg-white/7.5"]))]
        [];
       Element "Search" [] [];
       Element "div" [("className", PString "flex items-center gap-5 lg:hidden")]
        [Element "MobileNavigation" [] [];
         Element "a"
          [("href", PString "/docs");
           ("className", PString "flex gap-1.5 group/logo items-center pt-1")]
          [Element "Logo" [("className", PString "w-20 text-indigo-500 dark:text-white")] [];
           Element "span"
            [("className", PString "text-slate-700 dark:text-indigo-400 text-base group-hover/logo:text-white transition-color font-semibold")]
            [Text "Docs"]]];
       Element "div" [("className", PString "flex items-center gap-5")]
        [Element "div" [("className", PString "hidden lg:block mr-3")]
          [Element "SocialBadges" [] []];
         Element "div" [("className", PString "hidden sm:flex items-center gap-3")]
          [Element "Button"
            [("href", optional_string (env !! "NEXT_PUBLIC_SIGNIN_URL"));
             ("size", PString "sm");
             ("variant", PString "secondary")]
            [Text "Sign In"];
           Element "Button"
            [("href", PString (template_string (env !! "NEXT_PUBLIC_SIGNUP_URL") +:+ "?ref=docs-header"));
             ("size", PString "sm");
             ("arrow", PString "right")]
            [Text "Sign Up"]];
         Element "div"
          [("className", PString "hidden lg:block md:h-5 md:w-px md:bg-slate-900/10 md:dark:bg-white/15")]
          [];
         Element "div" [("className", PString "flex gap-4")]
          [Element "MobileSearch" [] [];
           Element "ModeToggle" [] []]]]).

End Header.

(** ** pages/terms.tsx *)

Module Terms.

Record Meta : Type := { title : string; description : string }.

Record PageProps : Type := { designVersion : string; meta : Meta }.

Record StaticProps : Type := { props : PageProps }.

Definition getStaticProps (_ : unit) : StaticProps :=
  {| props :=
       {| designVersion := "2";
          meta :=
            {| title := "Terms";
               description := "Inngest's terms and conditions" |} |} |}.

Definition Terms (_ : unit) : Rendered :=
  Markup
    (Element "LegalPage"
      [("iframeURL", PString "https://www.iubenda.com/terms-and-conditions/26885259")]
      []).

End Terms.

(** ** pages/blog/_posts: front-matter *)

Module Blog.

(** The value of a front-matter field. *)
Inductive YamlValue : Type :=
  | YString (s : string)
  | YDate (year month day : nat)
  | YBool (b : bool).

(** The front-matter of a post: its fields in the order of the file. *)
Definition FrontMatter := list (string * YamlValue).

Record Post : Type := { file : string; front_matter : FrontMatter }.

Definition run_nextjs_functions_in_the_background : Post :=
  {| file := "run-nextjs-functions-in-the-background.mdx";
     front_matter :=
       [("heading", YString "Run Next.js functions in the background with events and schedules on Vercel and Netlify");
        ("subtitle", YString "Learn how to use Next.js api functions and run them as you would a message queue or a cron job.");
        ("image", YString "/assets/blog/run-nextjs-functions-in-the-background/featured-image.jpg");
        ("date", YDate 2022 10 4)] |}.

Definition lifecycle_emails_with_resend : Post :=
  {| file := "lifecycle-emails-with-resend.mdx";
     front_matter :=
       [("heading", YString "Sending customer lifecycle emails with Resend and Inngest");
        ("subtitle", YString "How to Send Effective and Reliable Emails in your Next.js Applications with Resend & Inngest");
        ("image", YString "/assets/blog/lifcycle-emails-resend/customer-lifecycle-emails-with-resend-inngest.png");
        ("date", YDate 2023 8 21);
        ("author", YString "Joel Hooks")] |}.

Definition vercel_long_running_background_functions : Post :=
  {| file := "vercel-long-running-background-functions.mdx";
     front_matter :=
       [("heading", YString "Long-running background functions on Vercel");
        ("subtitle", YString "How to run business critical jobs for minutes, hours or days");
        ("image", YString "/assets/blog/vercel-long-running-background-functions/featured-image.png");
        ("date", YDate 2023 3 31);
        ("author", YString "Dan Farrelly");
        ("disableCTA", YBool true)] |}.

(** The posts under pages/blog/_posts. *)
Definition posts : list Post :=
  [run_nextjs_functions_in_the_background;
   lifecycle_emails_with_resend;
   vercel_long_running_background_functions].

Fixpoint field (name : string) (fm : FrontMatter) : option YamlValue :=
  match fm with
  | [] => None
  | (k, v) :: r => if String.eqb k name then Some v else field name r
  end.

(** [defines name p]: the front-matter of [p] has a field [name]. *)
Definition defines (name : string) (p : Post) : bool :=
  match field name (front_matter p) with
  | Some _ => true
  | None => false
  end.

End Blog.

(** ** Reading the rendered markup *)

(** The parts of a URL reference: [path?query#fragment]. *)
Module Url.

(** [break p s]: the longest prefix of [s] without a character satisfying
    [p], and the rest of [s], which starts at the first such character. *)
Fixpoint break (p : ascii -> bool) (s : string) : string * string :=
  match s with
  | "" => ("", "")
  | String a r =>
      if p a then ("", s)
      else let (before, rest) := break p r in (String a before, rest)
  end.

Fixpoint split_on (sep : ascii) (cur s : string) : list string :=
  match s with
  | "" => [cur]
  | String a r =>
      if Ascii.eqb a sep then cur :: split_on sep "" r
      else split_on sep (cur +:+ String a "") r
  end.

Definition is_delimiter (a : ascii) : bool :=
  Ascii.eqb a "?"%char || Ascii.eqb a "#"%char.

Definition path (url : string) : string := fst (break is_delimiter url).

Definition query (url : string) : string :=
  match snd (break is_delimiter url) with
  | String "?" r => fst (break (Ascii.eqb "#"%char) r)
  | _ => ""
  end.

(** The [name=value] parameters of the query string. *)
Definition params (url : string) : list string :=
  match query url with
  | "" => []
  | q => split_on "&"%char "" q
  end.

Definition has_param (param url : string) : bool :=
  existsb (String.eqb param) (params url).

(** A reference with a scheme or a host leaves the site; a reference that
    starts with a single slash is a route within it. *)
Definition is_external (url : string) : bool :=
  String.prefix "http://" url || String.prefix "https://" url
  || String.prefix "//" url.

Definition is_site_route (url : string) : bool :=
  String.prefix "/" url && negb (String.prefix "//" url).

End Url.


Definition class_of (n : Node) : string :=
  match string_prop "className" n with
  | Some c => c
  | None => ""
  end.

(** The class string of the root element. *)
Definition root_class (r : Rendered) : string :=
  match r with
  | Markup n => class_of n
  | Threw _ => ""
  end.

(** The class string of the first child of the root element: in [Header],
    the hairline under the bar. *)
Definition first_child_class (r : Rendered) : string :=
  match r with
  | Markup (Element _ _ (c :: _)) => class_of c
  | _ => ""
  end.

(** The entries of the style object of the root element. *)
Definition root_style (r : Rendered) : list (string * Q) :=
  match r with
  | Markup n =>
      match prop "style" (node_props n) with
      | Some (PStyle entries) => entries
      | _ => []
      end
  | Threw _ => []
  end.

(** The root element with its style object taken away. *)
Definition without_root_style (r : Rendered) : option Node :=
  match r with
  | Markup (Element ty ps ch) =>
      Some (Element ty
              (List.filter (fun kv => negb (String.eqb (fst kv) "style")) ps) ch)
  | Markup (Text s) => Some (Text s)
  | Threw _ => None
  end.

(** The class strings of all elements but the first [n], in document
    order. *)
Definition classes_after (n : nat) (r : Rendered) : list string :=
  match r with
  | Markup m => List.map class_of (skipn n (elements m))
  | Threw _ => []
  end.

(** The anchors of the markup as pairs of their text and their [href]. *)
Definition links (r : Rendered) : list (string * option string) :=
  match r with
  | Markup n =>
      List.map (fun a => (text_content a, string_prop "href" a)) (anchors n)
  | Threw _ => []
  end.

(** The [href] props of the elements of type [ty] whose text is [label]. *)
Definition hrefs_of (ty label : string) (r : Rendered)
    : list (option (PropValue Node)) :=
  match r with
  | Markup n =>
      List.map (fun e => prop "href" (node_props e))
        (List.filter
           (fun e => has_type ty e && String.eqb (text_content e) label)
           (elements n))
  | Threw _ => []
  end.

(** The [src] of the images inside an element. *)
Definition images (n : Node) : list (option string) :=
  List.map (string_prop "src") (List.filter (has_type "img") (elements n)).

(** ** Sample inputs *)

Module Inputs.

Definition hooks (isOpen isInside : bool) (scrollY : Q) : Header.Hooks :=
  {| Header.useMobileNavigationStore_isOpen := isOpen;
     Header.useIsInsideMobileNavigation := isInside;
     Header.useScroll_scrollY := scrollY |}.

Definition no_props : Header.HeaderProps := {| Header.className := None |}.

Definition with_class (c : string) : Header.HeaderProps :=
  {| Header.className := Some c |}.

(** Two environments that differ in the sign-in and sign-up URLs. *)
Definition env_production : gmap string string :=
  <["NEXT_PUBLIC_SIGNIN_URL" := "https://app.example.com/sign-in"]>
    (<["NEXT_PUBLIC_SIGNUP_URL" := "https://app.example.com/sign-up"]> ∅).


End Inputs.

(** ** More ways to read the markup *)

Module Erase.

(** [has_char p s]: some character of [s] satisfies [p]. *)
Fixpoint has_char (p : ascii -> bool) (s : string) : bool :=
  match s with
  | "" => false
  | String a r => p a || has_char p r
  end.

Definition without_prop (name : string) (ps : Props) : Props :=
  List.filter (fun kv => negb (String.eqb (fst kv) name)) ps.

(** The markup with the prop [name] taken away from the root element. *)
Definition root_prop (name : string) (r : Rendered) : option Node :=
  match r with
  | Markup (Element ty ps ch) => Some (Element ty (without_prop name ps) ch)
  | Markup (Text s) => Some (Text s)
  | Threw _ => None
  end.

(** The markup with the class strings of the root element and of its first
    child taken away. *)
Definition root_and_first_child_class (r : Rendered) : option Node :=
  match r with
  | Markup (Element ty ps (Element cty cps cch :: ch)) =>
      Some (Element ty (without_prop "className" ps)
              (Element cty (without_prop "className" cps) cch :: ch))
  | Markup (Element ty ps ch) =>
      Some (Element ty (without_prop "className" ps) ch)
  | Markup (Text s) => Some (Text s)
  | Threw _ => None
  end.

(** The tree with the [href] taken away from every element of type [ty]
    among the root and its descendants by children. *)
Fixpoint href_of (ty : string) (n : Node) : Node :=
  match n with
  | Text s => Text s
  | Element t ps ch =>
      Element t
        (if String.eqb t ty then without_prop "href" ps else ps)
        (List.map (href_of ty) ch)
  end.

Definition hrefs (ty : string) (r : Rendered) : option Node :=
  match r with
  | Markup n => Some (href_of ty n)
  | Threw _ => None
  end.

End Erase.

Module Scroll.

(** The share of the way from [lo] to [hi] that the value, clamped to
    that range, has gone. *)
Definition share (lo hi v : Q) : Q :=
  ((Motion.clamp lo hi v - lo) / (hi - lo))%Q.

End Scroll.

(** The href of the "Sign Up" button, when it is a string. *)
Definition sign_up_href (r : Rendered) : option string :=
  match hrefs_of "Button" "Sign Up" r with
  | [Some (PString h)] => Some h
  | _ => None
  end.

(** The types of the elements of the markup, in document order. *)
Definition element_types (r : Rendered) : list string :=
  match r with
  | Markup n =>
      List.map (fun e => match node_type e with Some t => t | None => "" end)
        (elements n)
  | Threw _ => []
  end.

(** * Properties *)

(** ** Class lists *)

Lemma append_assoc_space (a b : string) :
  (a +:+ " ") +:+ b = a +:+ String " " b.
Proof.
  induction a as [|c a IH]; [reflexivity|].
  change (String c ((a +:+ " ") +:+ b) = String c (a +:+ String " " b)).
  now rewrite IH.
Qed.

Lemma tokens_from_app_space (a b cur : string) :
  Classes.tokens_from cur (a +:+ String " " b)
  = Classes.tokens_from cur a ++ Classes.tokens_from "" b.
Proof.
  revert cur. induction a as [|c a IH]; intros cur.
  - reflexivity.
  - change (String c a +:+ String " " b) with (String c (a +:+ String " " b)).
    simpl. destruct (Classes.is_space c).
    + rewrite IH. now rewrite app_assoc.
    + apply IH.
Qed.

Lemma class_list_app_space (a b : string) :
  Classes.class_list (a +:+ String " " b)
  = Classes.class_list a ++ Classes.class_list b.
Proof. apply tokens_from_app_space. Qed.

Lemma class_list_step (str : string) (v : Clsx.ClassValue) :
  Classes.class_list (Clsx.step str v)
  = Classes.class_list str ++ Classes.class_list (Clsx.toVal v).
Proof.
  destruct v as [[|c s]|[|]|]; unfold Clsx.step; simpl;
    try (now rewrite app_nil_r).
  destruct str as [|d str]; [reflexivity|].
  simpl Clsx.nonempty. cbv iota.
  now rewrite append_assoc_space, class_list_app_space.
Qed.

Lemma class_list_fold (args : list Clsx.ClassValue) (str : string) :
  Classes.class_list (fold_left Clsx.step args str)
  = Classes.class_list str
    ++ flat_map (fun v => Classes.class_list (Clsx.toVal v)) args.
Proof.
  revert str. induction args as [|v args IH]; intros str; simpl.
  - now rewrite app_nil_r.
  - now rewrite IH, class_list_step, app_assoc.
Qed.

(** The class list of what [clsx] returns is made of the class lists of its
    string arguments, in order. *)
Lemma class_list_clsx (args : list Clsx.ClassValue) :
  Classes.class_list (Clsx.clsx args)
  = flat_map (fun v => Classes.class_list (Clsx.toVal v)) args.
Proof. unfold Clsx.clsx. now rewrite class_list_fold. Qed.

Lemma mem_app (t : string) (l1 l2 : list string) :
  Classes.mem t (l1 ++ l2) = Classes.mem t l1 || Classes.mem t l2.
Proof. apply existsb_app. Qed.

(** ** SocialCTA *)

(** C1 (what the code does): the two call-to-action anchors of [SocialCTA],
    "Join the community" and "View Project", both have the href
    [/docs?ref=homepage-hero], which is a route within the site and not an
    external URL. *)
Theorem SocialCTA_anchors_are_site_routes :
  links (SocialCTA.SocialCTA tt)
  = [("Join the community", Some "/docs?ref=homepage-hero");
     ("View Project", Some "/docs?ref=homepage-hero")]
  /\ Url.is_external "/docs?ref=homepage-hero" = false
  /\ Url.is_site_route "/docs?ref=homepage-hero" = true.
Proof. repeat split; reflexivity. Qed.

(** ** ShipInHours *)

(** C9: [ShipInHours] renders six anchors, around the logos of Next.js,
    Express, Redwood, Vercel, Netlify and Cloudflare; the href of each has a
    path under [/docs/] and a query string with the parameter
    [ref=homepage-fits-your-workflow]. *)
Theorem ShipInHours_logo_links :
  exists m,
    ShipInHours.ShipInHours tt = Markup m
    /\ List.map images (anchors m)
       = [[Some "/assets/homepage/send-events/next-js.png"];
          [Some "/assets/homepage/send-events/express.png"];
          [Some "/assets/homepage/send-events/redwood.png"];
          [Some "/assets/homepage/send-events/vercel.png"];
          [Some "/assets/homepage/send-events/netlify.png"];
          [Some "/assets/homepage/send-events/cloudflare-pages.png"]]
    /\ Forall
         (fun a =>
            exists href,
              string_prop "href" a = Some href
              /\ String.prefix "/docs/" (Url.path href) = true
              /\ Url.has_param "ref=homepage-fits-your-workflow" href = true)
         (anchors m).
Proof.
  eexists. split; [reflexivity|]. split; [reflexivity|].
  repeat constructor; eexists; (split; [reflexivity|]); split; reflexivity.
Qed.

(** ** Terms *)

(** C6: the Terms page renders [LegalPage] with the iubenda terms URL as
    its [iframeURL], and [getStaticProps] returns, whenever it is called,
    props with [designVersion] "2", meta title "Terms" and meta description
    "Inngest's terms and conditions". *)
Theorem Terms_page :
  forall u : unit,
    (exists m,
       Terms.Terms u = Markup m
       /\ node_type m = Some "LegalPage"
       /\ string_prop "iframeURL" m
          = Some "https://www.iubenda.com/terms-and-conditions/26885259")
    /\ Terms.designVersion (Terms.props (Terms.getStaticProps u)) = "2"
    /\ Terms.title (Terms.meta (Terms.props (Terms.getStaticProps u))) = "Terms"
    /\ Terms.description (Terms.meta (Terms.props (Terms.getStaticProps u)))
       = "Inngest's terms and conditions".
Proof.
  intros u. split; [eexists; repeat split; reflexivity|].
  repeat split; reflexivity.
Qed.

(** ** Blog posts *)

(** C4 (as stated, refuted): not every post defines all of heading,
    subtitle, image, date and author:
    run-nextjs-functions-in-the-background.mdx has no author field. *)
Lemma posts_not_all_with_author :
  ~ (forall p, In p Blog.posts ->
       forall k, In k ["heading"; "subtitle"; "image"; "date"; "author"] ->
         Blog.defines k p = true).
Proof.
  intros H.
  specialize (H Blog.run_nextjs_functions_in_the_background
                (or_introl eq_refl) "author").
  assert (Hk : In "author" ["heading"; "subtitle"; "image"; "date"; "author"])
    by (simpl; tauto).
  apply H in Hk. discriminate Hk.
Qed.

(** C4 (amended): every post defines heading, subtitle, image and date, and
    every post other than run-nextjs-functions-in-the-background.mdx also
    defines author. *)
Theorem posts_front_matter_fields (p : Blog.Post) :
  In p Blog.posts ->
  (forall k, In k ["heading"; "subtitle"; "image"; "date"] ->
     Blog.defines k p = true)
  /\ (Blog.file p <> "run-nextjs-functions-in-the-background.mdx" ->
      Blog.defines "author" p = true).
Proof.
  intros Hp. simpl in Hp.
  destruct Hp as [<-|[<-|[<-|[]]]]; (split; [|try reflexivity]).
  all: try (intros k Hk; simpl in Hk;
            destruct Hk as [<-|[<-|[<-|[<-|[]]]]]; reflexivity).
  intros Hfile. now contradiction Hfile.
Qed.

Lemma posts_front_matter_fields_witness :
  In Blog.lifecycle_emails_with_resend Blog.posts
  /\ Blog.defines "date" Blog.lifecycle_emails_with_resend = true
  /\ Blog.defines "author" Blog.lifecycle_emails_with_resend = true.
Proof.
  assert (Hin : In Blog.lifecycle_emails_with_resend Blog.posts)
    by (simpl; tauto).
  destruct (posts_front_matter_fields _ Hin) as [Hfields Hauthor].
  split; [exact Hin|]. split.
  - apply Hfields. simpl. tauto.
  - apply Hauthor. discriminate.
Defined.

(** ** Header: sign-in and sign-up links *)

(** C3: when the environment gives NEXT_PUBLIC_SIGNIN_URL the value
    [signin] and NEXT_PUBLIC_SIGNUP_URL the value [signup], the href of the
    "Sign In" button is [signin] and the href of the "Sign Up" button is
    [signup] followed by [?ref=docs-header]. *)
Theorem Header_sign_in_sign_up_hrefs
    (props : Header.HeaderProps) (ref : option nat) (hooks : Header.Hooks)
    (env : gmap string string) (signin signup : string) :
  env !! "NEXT_PUBLIC_SIGNIN_URL" = Some signin ->
  env !! "NEXT_PUBLIC_SIGNUP_URL" = Some signup ->
  hrefs_of "Button" "Sign In" (Header.Header props ref hooks env)
  = [Some (PString signin)]
  /\ hrefs_of "Button" "Sign Up" (Header.Header props ref hooks env)
     = [Some (PString (signup +:+ "?ref=docs-header"))].
Proof.
  intros Hin Hup. unfold Header.Header. rewrite Hin, Hup.
  split; reflexivity.
Qed.

Lemma Header_sign_in_sign_up_hrefs_witness :
  hrefs_of "Button" "Sign In"
    (Header.Header Inputs.no_props None (Inputs.hooks false false 0)
       Inputs.env_production)
  = [Some (PString "https://app.example.com/sign-in")]
  /\ hrefs_of "Button" "Sign Up"
       (Header.Header Inputs.no_props None (Inputs.hooks false false 0)
          Inputs.env_production)
     = [Some (PString "https://app.example.com/sign-up?ref=docs-header")].
Proof.
  apply (Header_sign_in_sign_up_hrefs Inputs.no_props None
           (Inputs.hooks false false 0) Inputs.env_production
           "https://app.example.com/sign-in" "https://app.example.com/sign-up");
    reflexivity.
Defined.

(** ** Header: opacity of the background *)

Section Interpolation.

Local Open Scope Q_scope.

Variables lo hi a b : Q.
Hypothesis lo_lt_hi : lo < hi.

Lemma range_not_empty : Qeq_bool (hi - lo) 0 = false.
Proof using lo_lt_hi.
  destruct (Qeq_bool (hi - lo) 0) eqn:E; [|reflexivity].
  apply Qeq_bool_iff in E. lra.
Qed.

Lemma clamp_below (v : Q) : v <= lo -> Motion.clamp lo hi v == lo.
Proof using lo_lt_hi.
  intros Hv. unfold Motion.clamp.
  destruct (Qle_bool v hi) eqn:E1; simpl.
  - destruct (Qle_bool lo v) eqn:E2; simpl; [|reflexivity].
    apply Qle_bool_iff in E2. lra.
  - assert (v <= hi) as Hle by lra.
    apply Qle_bool_iff in Hle. congruence.
Qed.

Lemma clamp_above (v : Q) : hi <= v -> Motion.clamp lo hi v == hi.
Proof using lo_lt_hi.
  intros Hv. unfold Motion.clamp.
  destruct (Qle_bool v hi) eqn:E1; simpl; [|reflexivity].
  apply Qle_bool_iff in E1.
  destruct (Qle_bool lo v) eqn:E2; simpl; [lra|].
  assert (lo <= v) as Hle by lra.
  apply Qle_bool_iff in Hle. congruence.
Qed.

Lemma clamp_within (v : Q) : lo <= v <= hi -> Motion.clamp lo hi v = v.
Proof using Type.
  intros [H1 H2]. unfold Motion.clamp.
  apply Qle_bool_iff in H1, H2. now rewrite H1, H2.
Qed.

Lemma progress_eq (v : Q) :
  Motion.progress lo hi v = (v - lo) / (hi - lo).
Proof using lo_lt_hi.
  unfold Motion.progress. cbv zeta. now rewrite range_not_empty.
Qed.

(** A two-point [useTransform] is the straight line through
    [(lo, a)] and [(hi, b)] between [lo] and [hi], [a] below [lo] and [b]
    above [hi]. *)
Lemma useTransform_within (v : Q) :
  lo <= v <= hi ->
  Motion.useTransform v [lo; hi] [a; b] == a + (b - a) * ((v - lo) / (hi - lo)).
Proof using lo_lt_hi.
  intros Hv. unfold Motion.useTransform, Motion.mix.
  rewrite progress_eq, clamp_within by assumption. reflexivity.
Qed.

Lemma useTransform_below (v : Q) :
  v <= lo -> Motion.useTransform v [lo; hi] [a; b] == a.
Proof using lo_lt_hi.
  intros Hv. unfold Motion.useTransform, Motion.mix.
  rewrite progress_eq, (clamp_below v Hv). field. lra.
Qed.

Lemma useTransform_above (v : Q) :
  hi <= v -> Motion.useTransform v [lo; hi] [a; b] == b.
Proof using lo_lt_hi.
  intros Hv. unfold Motion.useTransform, Motion.mix.
  rewrite progress_eq, (clamp_above v Hv). field. lra.
Qed.

End Interpolation.

(** C2: the style of the root element of [Header] binds exactly the two
    custom properties [--bg-opacity-light] and [--bg-opacity-dark].  With
    [s] the scroll position, the first is 0.5 for [s <= 0], 0.9 for
    [72 <= s] and on the line from 0.5 to 0.9 in between; the second is 0.2,
    0.8 and on the line from 0.2 to 0.8.  The rest of the markup is the same
    at every scroll position. *)
Theorem Header_background_opacity
    (props : Header.HeaderProps) (ref : option nat) (hooks : Header.Hooks)
    (env : gmap string string) :
  exists light dark : Q,
    root_style (Header.Header props ref hooks env)
    = [("--bg-opacity-light", light); ("--bg-opacity-dark", dark)]
    /\ (Header.useScroll_scrollY hooks <= 0 ->
        light == 0.5 /\ dark == 0.2)%Q
    /\ (72 <= Header.useScroll_scrollY hooks ->
        light == 0.9 /\ dark == 0.8)%Q
    /\ (0 <= Header.useScroll_scrollY hooks <= 72 ->
        light == 0.5 + (0.9 - 0.5) * (Header.useScroll_scrollY hooks / 72)
        /\ dark == 0.2 + (0.8 - 0.2) * (Header.useScroll_scrollY hooks / 72))%Q
    /\ (forall s' : Q,
          without_root_style (Header.Header props ref hooks env)
          = without_root_style
              (Header.Header props ref
                 {| Header.useMobileNavigationStore_isOpen :=
                      Header.useMobileNavigationStore_isOpen hooks;
                    Header.useIsInsideMobileNavigation :=
                      Header.useIsInsideMobileNavigation hooks;
                    Header.useScroll_scrollY := s' |}
                 env)).
Proof.
  assert (H072 : (0 < 72)%Q) by reflexivity.
  do 2 eexists. split; [reflexivity|].
  split; [|split; [|split]].
  - intros Hs. split; apply useTransform_below; assumption.
  - intros Hs. split; apply useTransform_above; assumption.
  - intros Hs. split.
    + rewrite (useTransform_within 0 72 0.5 0.9 H072 _ Hs). field.
    + rewrite (useTransform_within 0 72 0.2 0.8 H072 _ Hs). field.
  - intros s'. reflexivity.
Qed.

Lemma Header_background_opacity_witness :
  exists light dark : Q,
    root_style
      (Header.Header Inputs.no_props None (Inputs.hooks false false 36) ∅)
    = [("--bg-opacity-light", light); ("--bg-opacity-dark", dark)]
    /\ (light == 0.7 /\ dark == 0.5)%Q.
Proof.
  destruct (Header_background_opacity Inputs.no_props None
              (Inputs.hooks false false 36) ∅)
    as (light & dark & Hstyle & _ & _ & Hwithin & _).
  exists light, dark. split; [exact Hstyle|].
  destruct Hwithin as [Hl Hd].
  - split; discriminate.
  - split; [rewrite Hl | rewrite Hd]; reflexivity.
Defined.

(** ** Purity *)







(** ** Header: classes *)

Lemma mem_In (t : string) (l : list string) :
  Classes.mem t l = true <-> In t l.
Proof.
  unfold Classes.mem. rewrite existsb_exists. split.
  - intros (x & Hx & Heq). apply String.eqb_eq in Heq. now subst.
  - intros Hin. exists t. split; [assumption|apply String.eqb_refl].
Qed.

Lemma subset_incl (wanted have : list string) :
  Classes.subset wanted have = true <-> incl wanted have.
Proof.
  unfold Classes.subset. rewrite forallb_forall. unfold incl.
  split; intros H t Ht; apply mem_In, H, Ht.
Qed.

Lemma subset_app_r (wanted own extra : list string) :
  Classes.subset wanted own = true ->
  Classes.subset wanted (extra ++ own) = true.
Proof.
  rewrite !subset_incl. intros H. now apply incl_appr.
Qed.

Lemma subset_app_l (wanted own : list string) :
  Classes.subset wanted (wanted ++ own) = true.
Proof.
  apply subset_incl, incl_appl, incl_refl.
Qed.

Lemma subset_app_disjoint (wanted own extra : list string) :
  Classes.disjoint wanted own = true ->
  Classes.subset wanted (extra ++ own) = true ->
  Classes.subset wanted extra = true.
Proof.
  unfold Classes.disjoint. rewrite forallb_forall, !subset_incl.
  intros Hdis Hsub t Ht.
  destruct (in_app_or _ _ _ (Hsub t Ht)) as [Hextra|Hown]; [assumption|].
  apply mem_In in Hown. specialize (Hdis t Ht).
  rewrite Hown in Hdis. discriminate Hdis.
Qed.

Lemma in_difference (t : string) (l1 l2 : list string) :
  In t l1 -> ~ In t l2 -> In t (Classes.difference l1 l2).
Proof.
  intros H1 H2. unfold Classes.difference. apply filter_In. split; [assumption|].
  destruct (Classes.mem t l2) eqn:E; [|reflexivity].
  apply mem_In in E. contradiction.
Qed.

(** A class that is in one of [extra ++ own1] and [extra ++ own2] and not
    in the other is in one of [own1] and [own2] and not in the other. *)
Lemma mem_app_changed (t : string) (extra own1 own2 : list string) :
  Classes.mem t (extra ++ own1) <> Classes.mem t (extra ++ own2) ->
  In t (Classes.difference own1 own2 ++ Classes.difference own2 own1).
Proof.
  rewrite !mem_app. intros Hneq.
  destruct (Classes.mem t extra); [now contradiction Hneq|].
  simpl in Hneq. apply in_or_app.
  destruct (Classes.mem t own1) eqn:E1, (Classes.mem t own2) eqn:E2;
    try (now contradiction Hneq).
  - left. apply in_difference; [now apply mem_In|].
    intros H. apply mem_In in H. congruence.
  - right. apply in_difference; [now apply mem_In|].
    intros H. apply mem_In in H. congruence.
Qed.

Lemma mem_changed (t : string) (own1 own2 : list string) :
  Classes.mem t own1 <> Classes.mem t own2 ->
  In t (Classes.difference own1 own2 ++ Classes.difference own2 own1).
Proof. apply (mem_app_changed t []). Qed.

Lemma has_classes_eq (cls wanted : string) :
  Classes.has_classes cls wanted
  = Classes.subset (Classes.class_list wanted) (Classes.class_list cls).
Proof. reflexivity. Qed.

(** The class list of the root element of [Header]: the classes of the
    caller, then those that [Header] composes itself. *)
Lemma Header_root_class_list
    (props : Header.HeaderProps) (ref : option nat) (hooks : Header.Hooks)
    (env : gmap string string) :
  Classes.class_list (root_class (Header.Header props ref hooks env))
  = Classes.class_list (Header.caller_classes props)
    ++ Classes.class_list
         (Clsx.clsx
            [Clsx.CString "fixed inset-x-0 top-0 z-50 flex h-14 items-center justify-between gap-12 px-4 transition sm:px-6 lg:z-30 lg:px-8";
             Clsx.and_then (negb (Header.useIsInsideMobileNavigation hooks))
               "backdrop-blur-sm dark:backdrop-blur lg:left-72 xl:left-80";
             Clsx.CString
               (if Header.useIsInsideMobileNavigation hooks
                then "bg-white dark:bg-slate-900"
                else "bg-white/[var(--bg-opacity-light)] dark:bg-slate-950/[var(--bg-opacity-dark)]")]).
Proof.
  change (root_class (Header.Header props ref hooks env))
    with (Clsx.clsx
            [Clsx.optional (Header.className props);
             Clsx.CString "fixed inset-x-0 top-0 z-50 flex h-14 items-center justify-between gap-12 px-4 transition sm:px-6 lg:z-30 lg:px-8";
             Clsx.and_then (negb (Header.useIsInsideMobileNavigation hooks))
               "backdrop-blur-sm dark:backdrop-blur lg:left-72 xl:left-80";
             Clsx.CString
               (if Header.useIsInsideMobileNavigation hooks
                then "bg-white dark:bg-slate-900"
                else "bg-white/[var(--bg-opacity-light)] dark:bg-slate-950/[var(--bg-opacity-dark)]")]).
  rewrite !class_list_clsx. unfold Header.caller_classes.
  destruct (Header.className props) as [c|];
    cbn [flat_map Clsx.optional Clsx.toVal]; reflexivity.
Qed.

(** The class string of the hairline depends on the two flags only. *)
Lemma Header_hairline_class
    (props : Header.HeaderProps) (ref : option nat) (hooks : Header.Hooks)
    (env : gmap string string) :
  first_child_class (Header.Header props ref hooks env)
  = Clsx.clsx
      [Clsx.CString "absolute inset-x-0 top-full h-px transition";
       Clsx.and_then
         (Header.useIsInsideMobileNavigation hooks
          || negb (Header.useMobileNavigationStore_isOpen hooks))
         "bg-slate-900/7.5 dark:bg-white/7.5"].
Proof. reflexivity. Qed.

Lemma subset_app_extra (wanted own extra : list string) :
  Classes.subset wanted extra = true ->
  Classes.subset wanted (extra ++ own) = true.
Proof.
  rewrite !subset_incl. intros H. now apply incl_appl.
Qed.

(** C5 (as stated, refuted): when the caller passes the className
    [bg-white dark:bg-slate-900], the class list of the root element
    contains these classes although the header is not inside the mobile
    navigation. *)
Lemma Header_solid_background_from_caller :
  ~ (Classes.has_classes
       (root_class
          (Header.Header (Inputs.with_class "bg-white dark:bg-slate-900") None
             (Inputs.hooks false false 0) ∅))
       "bg-white dark:bg-slate-900" = true
     <-> Header.useIsInsideMobileNavigation (Inputs.hooks false false 0) = true).
Proof.
  intros [H _].
  assert (Hhas :
    Classes.has_classes
      (root_class
         (Header.Header (Inputs.with_class "bg-white dark:bg-slate-900") None
            (Inputs.hooks false false 0) ∅))
      "bg-white dark:bg-slate-900" = true) by (vm_compute; reflexivity).
  apply H in Hhas. discriminate Hhas.
Qed.

(** C5 (amended): the class list of the root element contains
    [bg-white dark:bg-slate-900] exactly when the header is inside the
    mobile navigation or the caller's className itself contains these
    classes, and contains the variable-opacity background classes together
    with the backdrop-blur classes exactly when the header is not inside the
    mobile navigation or the caller's className itself contains all of
    them; the class list of the hairline contains
    [bg-slate-900/7.5 dark:bg-white/7.5] exactly when the header is inside
    the mobile navigation or the mobile navigation is not open, whatever the
    className. *)
Theorem Header_conditional_classes
    (props : Header.HeaderProps) (ref : option nat) (hooks : Header.Hooks)
    (env : gmap string string) :
  (Classes.has_classes (root_class (Header.Header props ref hooks env))
     "bg-white dark:bg-slate-900" = true
   <-> Header.useIsInsideMobileNavigation hooks = true
       \/ Classes.has_classes (Header.caller_classes props)
            "bg-white dark:bg-slate-900" = true)
  /\ (Classes.has_classes (root_class (Header.Header props ref hooks env))
        "bg-white/[var(--bg-opacity-light)] dark:bg-slate-950/[var(--bg-opacity-dark)]"
      && Classes.has_classes (root_class (Header.Header props ref hooks env))
           "backdrop-blur-sm dark:backdrop-blur" = true
      <-> Header.useIsInsideMobileNavigation hooks = false
          \/ Classes.has_classes (Header.caller_classes props)
               "bg-white/[var(--bg-opacity-light)] dark:bg-slate-950/[var(--bg-opacity-dark)]"
             && Classes.has_classes (Header.caller_classes props)
                  "backdrop-blur-sm dark:backdrop-blur" = true)
  /\ (Classes.has_classes (first_child_class (Header.Header props ref hooks env))
        "bg-slate-900/7.5 dark:bg-white/7.5" = true
      <-> Header.useIsInsideMobileNavigation hooks
          || negb (Header.useMobileNavigationStore_isOpen hooks) = true).
Proof.
  rewrite !has_classes_eq, Header_root_class_list, Header_hairline_class.
  generalize (Classes.class_list (Header.caller_classes props)).
  intros caller.
  destruct (Header.useIsInsideMobileNavigation hooks).
  - split; [|split].
    + split; [intros _; now left|]. intros _.
      apply subset_app_r. vm_compute. reflexivity.
    + split.
      * intros H. right. apply andb_true_iff in H as [H1 H2].
        apply subset_app_disjoint in H1; [|vm_compute; reflexivity].
        apply subset_app_disjoint in H2; [|vm_compute; reflexivity].
        now rewrite H1, H2.
      * intros [H|H]; [discriminate H|].
        apply andb_true_iff in H as [H1 H2].
        apply andb_true_iff. split; now apply subset_app_extra.
    + destruct (Header.useMobileNavigationStore_isOpen hooks);
        vm_compute; tauto.
  - split; [|split].
    + split.
      * intros H. right.
        apply subset_app_disjoint in H; [exact H|vm_compute; reflexivity].
      * intros [H|H]; [discriminate H|]. now apply subset_app_extra.
    + split; [intros _; now left|]. intros _.
      apply andb_true_iff. split; apply subset_app_r; vm_compute; reflexivity.
    + destruct (Header.useMobileNavigationStore_isOpen hooks);
        vm_compute; tauto.
Qed.

Lemma Header_conditional_classes_witness :
  (Classes.has_classes
     (root_class
        (Header.Header (Inputs.with_class "bg-white dark:bg-slate-900") None
           (Inputs.hooks true false 0) ∅))
     "bg-white dark:bg-slate-900" = true
   <-> Header.useIsInsideMobileNavigation (Inputs.hooks true false 0) = true
       \/ Classes.has_classes
            (Header.caller_classes
               (Inputs.with_class "bg-white dark:bg-slate-900"))
            "bg-white dark:bg-slate-900" = true)
  /\ (Classes.has_classes
        (first_child_class
           (Header.Header (Inputs.with_class "bg-white dark:bg-slate-900") None
              (Inputs.hooks true false 0) ∅))
        "bg-slate-900/7.5 dark:bg-white/7.5" = true
      <-> Header.useIsInsideMobileNavigation (Inputs.hooks true false 0)
          || negb (Header.useMobileNavigationStore_isOpen
                     (Inputs.hooks true false 0)) = true).
Proof.
  destruct (Header_conditional_classes
              (Inputs.with_class "bg-white dark:bg-slate-900") None
              (Inputs.hooks true false 0) ∅) as (Hsolid & _ & Hhairline).
  split; [exact Hsolid|exact Hhairline].
Defined.

(** C10 (as stated, refuted): when the header moves into the mobile
    navigation, the class [lg:left-72] leaves the class list of the root
    element, and it is neither a background class nor a backdrop-blur
    class. *)
Lemma Header_left_offset_changes :
  ~ Classes.changes_only
      (fun t => Classes.is_background t || Classes.is_backdrop_blur t)
      (root_class
         (Header.Header Inputs.no_props None (Inputs.hooks false false 0) ∅))
      (root_class
         (Header.Header Inputs.no_props None (Inputs.hooks false true 0) ∅)).
Proof.
  intros H. specialize (H "lg:left-72"). vm_compute in H.
  assert (Habsurd : false = true) by (apply H; discriminate).
  discriminate Habsurd.
Qed.

(** C10 (amended): whatever the two flags and the className, the class list
    of the root element contains the fixed layout classes and the classes of
    the caller's className.  Between two renderings with the same props, a
    class that is in the root class list of one and not of the other is a
    background class, a backdrop-blur class or a left-offset class
    ([lg:left-72], [xl:left-80]); a class that is in the hairline class list
    of one and not of the other is one of
    [bg-slate-900/7.5 dark:bg-white/7.5]; the class strings of all other
    elements are the same. *)
Theorem Header_class_frame
    (props : Header.HeaderProps) (ref1 ref2 : option nat)
    (hooks1 hooks2 : Header.Hooks) (env1 env2 : gmap string string) :
  Classes.has_classes (root_class (Header.Header props ref1 hooks1 env1))
    "fixed inset-x-0 top-0 z-50 flex h-14 items-center justify-between gap-12 px-4 transition sm:px-6 lg:z-30 lg:px-8"
  = true
  /\ Classes.has_classes (root_class (Header.Header props ref1 hooks1 env1))
       (Header.caller_classes props) = true
  /\ Classes.changes_only
       (fun t => Classes.is_background t || Classes.is_backdrop_blur t
                 || Classes.is_left_offset t)
       (root_class (Header.Header props ref1 hooks1 env1))
       (root_class (Header.Header props ref2 hooks2 env2))
  /\ Classes.changes_only
       (fun t => Classes.mem t
                   (Classes.class_list "bg-slate-900/7.5 dark:bg-white/7.5"))
       (first_child_class (Header.Header props ref1 hooks1 env1))
       (first_child_class (Header.Header props ref2 hooks2 env2))
  /\ classes_after 2 (Header.Header props ref1 hooks1 env1)
     = classes_after 2 (Header.Header props ref2 hooks2 env2).
Proof.
  split; [|split; [|split; [|split]]].
  - rewrite has_classes_eq, Header_root_class_list.
    apply subset_app_r.
    destruct (Header.useIsInsideMobileNavigation hooks1);
      vm_compute; reflexivity.
  - rewrite has_classes_eq, Header_root_class_list.
    apply subset_app_l.
  - intros t Hneq. rewrite !Header_root_class_list in Hneq.
    apply mem_app_changed in Hneq. revert t Hneq. apply forallb_forall.
    destruct (Header.useIsInsideMobileNavigation hooks1),
             (Header.useIsInsideMobileNavigation hooks2);
      vm_compute; reflexivity.
  - intros t Hneq. rewrite !Header_hairline_class in Hneq.
    apply mem_changed in Hneq. revert t Hneq. apply forallb_forall.
    destruct (Header.useIsInsideMobileNavigation hooks1),
             (Header.useIsInsideMobileNavigation hooks2),
             (Header.useMobileNavigationStore_isOpen hooks1),
             (Header.useMobileNavigationStore_isOpen hooks2);
      vm_compute; reflexivity.
  - unfold Header.Header.
    destruct (env1 !! "NEXT_PUBLIC_SIGNIN_URL"),
             (env2 !! "NEXT_PUBLIC_SIGNIN_URL"); reflexivity.
Qed.

Lemma Header_class_frame_witness :
  Classes.has_classes
    (root_class
       (Header.Header (Inputs.with_class "print:hidden") None
          (Inputs.hooks false false 0) ∅))
    "fixed inset-x-0 top-0 z-50 flex h-14 items-center justify-between gap-12 px-4 transition sm:px-6 lg:z-30 lg:px-8"
  = true
  /\ Classes.has_classes
       (root_class
          (Header.Header (Inputs.with_class "print:hidden") None
             (Inputs.hooks false false 0) ∅))
       "print:hidden" = true
  /\ (Classes.mem "xl:left-80"
        (Classes.class_list
           (root_class
              (Header.Header (Inputs.with_class "print:hidden") None
                 (Inputs.hooks false false 0) ∅)))
      <> Classes.mem "xl:left-80"
           (Classes.class_list
              (root_class
                 (Header.Header (Inputs.with_class "print:hidden") (Some 1%nat)
                    (Inputs.hooks true true 72) Inputs.env_production))))
  /\ Classes.is_background "xl:left-80"
     || Classes.is_backdrop_blur "xl:left-80"
     || Classes.is_left_offset "xl:left-80" = true.
Proof.
  destruct (Header_class_frame (Inputs.with_class "print:hidden")
              None (Some 1%nat)
              (Inputs.hooks false false 0) (Inputs.hooks true true 72)
              ∅ Inputs.env_production)
    as (Hlayout & Hcaller & Hroot & _ & _).
  assert (Hchanged :
    Classes.mem "xl:left-80"
      (Classes.class_list
         (root_class
            (Header.Header (Inputs.with_class "print:hidden") None
               (Inputs.hooks false false 0) ∅)))
    <> Classes.mem "xl:left-80"
         (Classes.class_list
            (root_class
               (Header.Header (Inputs.with_class "print:hidden") (Some 1%nat)
                  (Inputs.hooks true true 72) Inputs.env_production))))
    by (vm_compute; discriminate).
  split; [exact Hlayout|]. split; [exact Hcaller|].
  split; [exact Hchanged|]. exact (Hroot "xl:left-80" Hchanged).
Defined.

(** * Further properties of the components *)

(** ** Header: unset environment variables *)

(** X1: when neither NEXT_PUBLIC_SIGNIN_URL nor NEXT_PUBLIC_SIGNUP_URL is
    set, the "Sign In" button gets an undefined href and the "Sign Up"
    button the href [undefined?ref=docs-header]. *)
Theorem Header_unset_environment
    (props : Header.HeaderProps) (ref : option nat) (hooks : Header.Hooks)
    (env : gmap string string) :
  env !! "NEXT_PUBLIC_SIGNIN_URL" = None ->
  env !! "NEXT_PUBLIC_SIGNUP_URL" = None ->
  hrefs_of "Button" "Sign In" (Header.Header props ref hooks env)
  = [Some PUndefined]
  /\ sign_up_href (Header.Header props ref hooks env)
     = Some "undefined?ref=docs-header".
Proof.
  intros Hin Hup. unfold sign_up_href, Header.Header. rewrite Hin, Hup.
  split; reflexivity.
Qed.

Lemma Header_unset_environment_witness :
  hrefs_of "Button" "Sign In"
    (Header.Header Inputs.no_props None (Inputs.hooks false false 0) ∅)
  = [Some PUndefined]
  /\ sign_up_href
       (Header.Header Inputs.no_props None (Inputs.hooks false false 0) ∅)
     = Some "undefined?ref=docs-header".
Proof.
  apply (Header_unset_environment Inputs.no_props None
           (Inputs.hooks false false 0) ∅); reflexivity.
Defined.

(** ** Header: how the sign-up URL is built *)

Lemma append_nil_r (s : string) : s +:+ "" = s.
Proof.
  induction s as [|c s IH]; [reflexivity|].
  change (String c (s +:+ "") = String c s). now rewrite IH.
Qed.

Lemma append_cons (c : ascii) (s t : string) :
  String c s +:+ t = String c (s +:+ t).
Proof. reflexivity. Qed.

Lemma break_app_none (p : ascii -> bool) (s t : string) :
  Erase.has_char p s = false ->
  Url.break p (s +:+ t) = (s +:+ fst (Url.break p t), snd (Url.break p t)).
Proof.
  induction s as [|c s IH]; intros H.
  - change ("" +:+ t) with t. now destruct (Url.break p t).
  - simpl in H. apply orb_false_iff in H as [Hc Hs].
    rewrite append_cons. simpl. rewrite Hc, (IH Hs). reflexivity.
Qed.

Lemma break_app_some (p : ascii -> bool) (s t : string) :
  Erase.has_char p s = true ->
  Url.break p (s +:+ t) = (fst (Url.break p s), snd (Url.break p s) +:+ t).
Proof.
  induction s as [|c s IH]; intros H; [discriminate H|].
  rewrite append_cons. simpl in *.
  destruct (p c); [reflexivity|].
  simpl in H. rewrite (IH H). now destruct (Url.break p s).
Qed.

(** What [break] leaves: the first part has no character satisfying [p];
    the rest is empty when [s] has none, and starts with the first one
    otherwise. *)
Lemma break_parts (p : ascii -> bool) (s : string) :
  Erase.has_char p (fst (Url.break p s)) = false
  /\ (if Erase.has_char p s
      then exists c r,
             snd (Url.break p s) = String c r /\ p c = true
             /\ (forall q, q c = true \/ Erase.has_char q r = true ->
                   Erase.has_char q s = true)
             /\ (forall q, Erase.has_char q s = true ->
                   Erase.has_char q (fst (Url.break p s)) = true
                   \/ q c = true \/ Erase.has_char q r = true)
      else Url.break p s = (s, "")).
Proof.
  induction s as [|c s [IH1 IH2]]; [split; reflexivity|].
  simpl. destruct (p c) eqn:Hc; simpl.
  - split; [reflexivity|]. exists c, s. repeat split; try assumption.
    + intros q [Hq|Hq]; rewrite Hq; [reflexivity|apply orb_true_r].
    + intros q Hq. apply orb_true_iff in Hq as [Hq|Hq]; auto.
  - destruct (Url.break p s) as [before rest] eqn:Hb. simpl in *.
    rewrite Hc, IH1. split; [reflexivity|].
    destruct (Erase.has_char p s).
    + destruct IH2 as (d & r & -> & Hd & Hsub & Hcases).
      exists d, r. repeat split; try assumption.
      * intros q Hq. rewrite (Hsub q Hq). apply orb_true_r.
      * intros q Hq. apply orb_true_iff in Hq as [Hq|Hq].
        -- left. now rewrite Hq.
        -- destruct (Hcases q Hq) as [H|[H|H]]; auto.
           left. rewrite H. apply orb_true_r.
    + injection IH2 as -> ->. reflexivity.
Qed.

Lemma has_char_weaken (p q : ascii -> bool) (s : string) :
  (forall c, q c = true -> p c = true) ->
  Erase.has_char p s = false -> Erase.has_char q s = false.
Proof.
  intros Hpq. induction s as [|c s IH]; [reflexivity|]. simpl.
  intros H. apply orb_false_iff in H as [Hc Hs].
  rewrite (IH Hs), orb_false_r.
  destruct (q c) eqn:Hq; [|reflexivity]. rewrite (Hpq c Hq) in Hc. discriminate.
Qed.

Lemma has_char_strengthen (p q : ascii -> bool) (s : string) :
  (forall c, q c = true -> p c = true) ->
  Erase.has_char q s = true -> Erase.has_char p s = true.
Proof.
  intros Hpq Hq. destruct (Erase.has_char p s) eqn:Hp; [reflexivity|].
  rewrite (has_char_weaken p q s Hpq Hp) in Hq. discriminate.
Qed.

Lemma hash_is_delimiter (c : ascii) :
  Ascii.eqb "#" c = true -> Url.is_delimiter c = true.
Proof.
  intros H. apply Ascii.eqb_eq in H. now subst.
Qed.

Lemma question_is_delimiter (c : ascii) :
  Ascii.eqb "?" c = true -> Url.is_delimiter c = true.
Proof.
  intros H. apply Ascii.eqb_eq in H. now subst.
Qed.

Lemma delimiter_cases (c : ascii) :
  Url.is_delimiter c = true -> c = "?"%char \/ c = "#"%char.
Proof.
  unfold Url.is_delimiter. intros H. apply orb_true_iff in H as [H|H];
    apply Ascii.eqb_eq in H; auto.
Qed.

Lemma sign_up_href_eq
    (props : Header.HeaderProps) (ref : option nat) (hooks : Header.Hooks)
    (env : gmap string string) (signup : string) :
  env !! "NEXT_PUBLIC_SIGNUP_URL" = Some signup ->
  sign_up_href (Header.Header props ref hooks env)
  = Some (signup +:+ "?ref=docs-header").
Proof.
  intros Hup. unfold sign_up_href, Header.Header. rewrite Hup.
  destruct (env !! "NEXT_PUBLIC_SIGNIN_URL"); reflexivity.
Qed.
Lemma break_sign_up_clean (signup : string) :
  Erase.has_char Url.is_delimiter signup = false ->
  Url.break Url.is_delimiter (signup +:+ "?ref=docs-header")
  = (signup, "?ref=docs-header").
Proof.
  intros H. rewrite (break_app_none _ _ _ H).
  change (Url.break Url.is_delimiter "?ref=docs-header")
    with ("", "?ref=docs-header").
  cbn [fst snd]. now rewrite append_nil_r.
Qed.

(** X2: when the value of NEXT_PUBLIC_SIGNUP_URL has neither a query string
    nor a fragment, the href of the "Sign Up" button has that value as its
    path and [ref=docs-header] as its only query parameter. *)
Theorem Header_sign_up_plain_url
    (props : Header.HeaderProps) (ref : option nat) (hooks : Header.Hooks)
    (env : gmap string string) (signup : string) :
  env !! "NEXT_PUBLIC_SIGNUP_URL" = Some signup ->
  Erase.has_char Url.is_delimiter signup = false ->
  exists href,
    sign_up_href (Header.Header props ref hooks env) = Some href
    /\ Url.path href = signup
    /\ Url.params href = ["ref=docs-header"].
Proof.
  intros Hup Hplain. rewrite (sign_up_href_eq _ _ _ _ _ Hup).
  eexists. split; [reflexivity|].
  unfold Url.params, Url.query, Url.path.
  rewrite (break_sign_up_clean _ Hplain). split; reflexivity.
Qed.

Lemma Header_sign_up_plain_url_witness :
  exists href,
    sign_up_href
      (Header.Header Inputs.no_props None (Inputs.hooks false false 0)
         Inputs.env_production) = Some href
    /\ Url.path href = "https://app.example.com/sign-up"
    /\ Url.params href = ["ref=docs-header"].
Proof.
  apply (Header_sign_up_plain_url Inputs.no_props None
           (Inputs.hooks false false 0) Inputs.env_production
           "https://app.example.com/sign-up"); reflexivity.
Defined.

(** X3: when the value of NEXT_PUBLIC_SIGNUP_URL has a fragment, the
    appended [?ref=docs-header] becomes part of the fragment: the href of
    the "Sign Up" button has the path and the query string of the value
    itself. *)
Theorem Header_sign_up_url_with_fragment
    (props : Header.HeaderProps) (ref : option nat) (hooks : Header.Hooks)
    (env : gmap string string) (signup : string) :
  env !! "NEXT_PUBLIC_SIGNUP_URL" = Some signup ->
  Erase.has_char (Ascii.eqb "#") signup = true ->
  exists href,
    sign_up_href (Header.Header props ref hooks env) = Some href
    /\ Url.path href = Url.path signup
    /\ Url.query href = Url.query signup.
Proof.
  intros Hup Hfragment. rewrite (sign_up_href_eq _ _ _ _ _ Hup).
  eexists. split; [reflexivity|].
  assert (Hdelim : Erase.has_char Url.is_delimiter signup = true)
    by (apply (has_char_strengthen _ _ _ hash_is_delimiter Hfragment)).
  unfold Url.path, Url.query. rewrite (break_app_some _ _ _ Hdelim).
  cbn [fst snd]. split; [reflexivity|].
  destruct (break_parts Url.is_delimiter signup) as [Hbefore Hrest].
  rewrite Hdelim in Hrest.
  destruct Hrest as (c & r & -> & Hc & _ & Hcases).
  rewrite append_cons.
  destruct (delimiter_cases c Hc) as [-> | ->]; [|reflexivity].
  assert (Hr : Erase.has_char (Ascii.eqb "#") r = true).
  { destruct (Hcases _ Hfragment) as [H|[H|H]]; [|discriminate H|exact H].
    rewrite (has_char_weaken _ _ _ hash_is_delimiter Hbefore) in H.
    discriminate H. }
  now rewrite (break_app_some _ _ _ Hr).
Qed.

Lemma Header_sign_up_url_with_fragment_witness :
  exists href,
    sign_up_href
      (Header.Header Inputs.no_props None (Inputs.hooks false false 0)
         (<["NEXT_PUBLIC_SIGNUP_URL" := "https://app.example.com/?plan=pro#sign-up"]> ∅))
    = Some href
    /\ Url.path href = Url.path "https://app.example.com/?plan=pro#sign-up"
    /\ Url.query href = Url.query "https://app.example.com/?plan=pro#sign-up".
Proof.
  apply (Header_sign_up_url_with_fragment Inputs.no_props None
           (Inputs.hooks false false 0)
           (<["NEXT_PUBLIC_SIGNUP_URL" := "https://app.example.com/?plan=pro#sign-up"]> ∅)
           "https://app.example.com/?plan=pro#sign-up"); reflexivity.
Defined.

(** X4: when the value of NEXT_PUBLIC_SIGNUP_URL has a query string and no
    fragment, the appended [?ref=docs-header] is glued to that query
    string: the href of the "Sign Up" button has the path of the value and
    the query string of the value followed by [?ref=docs-header]. *)
Theorem Header_sign_up_url_with_query
    (props : Header.HeaderProps) (ref : option nat) (hooks : Header.Hooks)
    (env : gmap string string) (signup : string) :
  env !! "NEXT_PUBLIC_SIGNUP_URL" = Some signup ->
  Erase.has_char (Ascii.eqb "?") signup = true ->
  Erase.has_char (Ascii.eqb "#") signup = false ->
  exists href,
    sign_up_href (Header.Header props ref hooks env) = Some href
    /\ Url.path href = Url.path signup
    /\ Url.query href = Url.query signup +:+ "?ref=docs-header".
Proof.
  intros Hup Hquery Hfragment. rewrite (sign_up_href_eq _ _ _ _ _ Hup).
  eexists. split; [reflexivity|].
  assert (Hdelim : Erase.has_char Url.is_delimiter signup = true)
    by (apply (has_char_strengthen _ _ _ question_is_delimiter Hquery)).
  unfold Url.path, Url.query. rewrite (break_app_some _ _ _ Hdelim).
  cbn [fst snd]. split; [reflexivity|].
  destruct (break_parts Url.is_delimiter signup) as [_ Hrest].
  rewrite Hdelim in Hrest.
  destruct Hrest as (c & r & -> & Hc & Hsub & _).
  rewrite append_cons.
  assert (Hr : Erase.has_char (Ascii.eqb "#") r = false).
  { destruct (Erase.has_char (Ascii.eqb "#") r) eqn:E; [|reflexivity].
    rewrite (Hsub _ (or_intror E)) in Hfragment. discriminate Hfragment. }
  destruct (delimiter_cases c Hc) as [-> | ->].
  - rewrite (break_app_none _ _ _ Hr).
    destruct (break_parts (Ascii.eqb "#") r) as [_ Hnone].
    rewrite Hr in Hnone. rewrite Hnone. reflexivity.
  - rewrite (Hsub (Ascii.eqb "#") (or_introl eq_refl)) in Hfragment.
    discriminate Hfragment.
Qed.

Lemma Header_sign_up_url_with_query_witness :
  exists href,
    sign_up_href
      (Header.Header Inputs.no_props None (Inputs.hooks false false 0)
         (<["NEXT_PUBLIC_SIGNUP_URL" := "https://app.example.com/sign-up?plan=pro"]> ∅))
    = Some href
    /\ Url.path href = Url.path "https://app.example.com/sign-up?plan=pro"
    /\ Url.query href
       = Url.query "https://app.example.com/sign-up?plan=pro"
         +:+ "?ref=docs-header".
Proof.
  apply (Header_sign_up_url_with_query Inputs.no_props None
           (Inputs.hooks false false 0)
           (<["NEXT_PUBLIC_SIGNUP_URL" := "https://app.example.com/sign-up?plan=pro"]> ∅)
           "https://app.example.com/sign-up?plan=pro"); reflexivity.
Defined.

(** ** Header: the caller's className *)

Lemma append_assoc (a b c : string) : (a +:+ b) +:+ c = a +:+ (b +:+ c).
Proof.
  induction a as [|x a IH]; [reflexivity|].
  rewrite !append_cons. now rewrite IH.
Qed.

(** Folding [Clsx.step] from a non-empty string gives that string, then a
    space and what the fold gives from the empty string, when that is not
    empty. *)
Lemma clsx_fold_prefix (args : list Clsx.ClassValue) (str : string) :
  str <> "" ->
  fold_left Clsx.step args str
  = str +:+ match fold_left Clsx.step args "" with
            | "" => ""
            | String x r => " " +:+ String x r
            end.
Proof.
  revert str. induction args as [|v args IH]; intros str Hstr.
  - simpl. now rewrite append_nil_r.
  - destruct str as [|s0 str]; [now contradiction Hstr|].
    destruct v as [[|x0 x]|[|]|]; try (apply IH; discriminate).
    change (fold_left Clsx.step (Clsx.CString (String x0 x) :: args) (String s0 str))
      with (fold_left Clsx.step args ((String s0 str +:+ " ") +:+ String x0 x)).
    change (fold_left Clsx.step (Clsx.CString (String x0 x) :: args) "")
      with (fold_left Clsx.step args (String x0 x)).
    rewrite (IH (String x0 x)) by discriminate.
    rewrite IH by (rewrite !append_cons; discriminate).
    rewrite !append_cons.
    now rewrite !append_assoc.
Qed.

Lemma Header_root_class_eq
    (props : Header.HeaderProps) (ref : option nat) (hooks : Header.Hooks)
    (env : gmap string string) :
  root_class (Header.Header props ref hooks env)
  = Clsx.clsx
      (Clsx.optional (Header.className props)
       :: [Clsx.CString "fixed inset-x-0 top-0 z-50 flex h-14 items-center justify-between gap-12 px-4 transition sm:px-6 lg:z-30 lg:px-8";
           Clsx.and_then (negb (Header.useIsInsideMobileNavigation hooks))
             "backdrop-blur-sm dark:backdrop-blur lg:left-72 xl:left-80";
           Clsx.CString
             (if Header.useIsInsideMobileNavigation hooks
              then "bg-white dark:bg-slate-900"
              else "bg-white/[var(--bg-opacity-light)] dark:bg-slate-950/[var(--bg-opacity-dark)]")]).
Proof. reflexivity. Qed.

(** X5: a non-empty className comes first in the class string of the root
    element, followed by one space and the class string that [Header]
    composes without a className; an empty className is the same as
    none. *)
Theorem Header_className_is_prefixed
    (c : string) (ref : option nat) (hooks : Header.Hooks)
    (env : gmap string string) :
  root_class (Header.Header (Inputs.with_class "") ref hooks env)
  = root_class (Header.Header Inputs.no_props ref hooks env)
  /\ (c <> "" ->
      root_class (Header.Header (Inputs.with_class c) ref hooks env)
      = c +:+ " "
        +:+ root_class (Header.Header Inputs.no_props ref hooks env)).
Proof.
  split; [reflexivity|]. intros Hc.
  rewrite !Header_root_class_eq.
  destruct c as [|a c]; [now contradiction Hc|].
  unfold Clsx.clsx.
  change (fold_left Clsx.step
            (Clsx.optional (Header.className (Inputs.with_class (String a c))) :: ?l) "")
    with (fold_left Clsx.step l (String a c)).
  change (fold_left Clsx.step
            (Clsx.optional (Header.className Inputs.no_props) :: ?l) "")
    with (fold_left Clsx.step l "").
  rewrite clsx_fold_prefix by discriminate.
  destruct (Header.useIsInsideMobileNavigation hooks); reflexivity.
Qed.

Lemma Header_className_is_prefixed_witness :
  root_class
    (Header.Header (Inputs.with_class "print:hidden") None
       (Inputs.hooks false true 0) ∅)
  = "print:hidden fixed inset-x-0 top-0 z-50 flex h-14 items-center justify-between gap-12 px-4 transition sm:px-6 lg:z-30 lg:px-8 bg-white dark:bg-slate-900".
Proof.
  destruct (Header_className_is_prefixed "print:hidden" None
              (Inputs.hooks false true 0) ∅) as [_ H].
  rewrite H by discriminate. reflexivity.
Defined.

(** ** Header: what each input reaches *)

(** X6: each input of [Header] reaches only its own places in the markup.
    The forwarded ref changes nothing but the [ref] of the root element;
    the environment nothing but the hrefs of the two [Button]s; the
    className nothing but the class string of the root element; the two
    flags nothing but the class strings of the root element and of the
    hairline. *)
Theorem Header_input_footprint
    (props props' : Header.HeaderProps) (ref ref' : option nat)
    (hooks : Header.Hooks) (isOpen' isInside' : bool)
    (env env' : gmap string string) :
  Erase.root_prop "ref" (Header.Header props ref hooks env)
  = Erase.root_prop "ref" (Header.Header props ref' hooks env)
  /\ Erase.hrefs "Button" (Header.Header props ref hooks env)
     = Erase.hrefs "Button" (Header.Header props ref hooks env')
  /\ Erase.root_prop "className" (Header.Header props ref hooks env)
     = Erase.root_prop "className" (Header.Header props' ref hooks env)
  /\ Erase.root_and_first_child_class (Header.Header props ref hooks env)
     = Erase.root_and_first_child_class
         (Header.Header props ref
            {| Header.useMobileNavigationStore_isOpen := isOpen';
               Header.useIsInsideMobileNavigation := isInside';
               Header.useScroll_scrollY := Header.useScroll_scrollY hooks |}
            env).
Proof.
  repeat split; reflexivity.
Qed.

(** X10: [Header] never renders a top-level navigation item: for every
    input, its markup has no [li] element and no [TopLevelNavItem]; the
    elements are, in order, the bar, the hairline, the search, the mobile
    navigation with the logo link, the social badges, the two buttons, a
    divider, the mobile search and the mode toggle. *)
Theorem Header_has_no_navigation_items
    (props : Header.HeaderProps) (ref : option nat) (hooks : Header.Hooks)
    (env : gmap string string) :
  element_types (Header.Header props ref hooks env)
  = ["motion.div"; "div"; "Search"; "div"; "MobileNavigation"; "a"; "Logo";
     "span"; "div"; "div"; "SocialBadges"; "div"; "Button"; "Button"; "div";
     "div"; "MobileSearch"; "ModeToggle"]
  /\ Classes.mem "li" (element_types (Header.Header props ref hooks env)) = false
  /\ Classes.mem "TopLevelNavItem"
       (element_types (Header.Header props ref hooks env)) = false.
Proof.
  assert (H : element_types (Header.Header props ref hooks env)
    = ["motion.div"; "div"; "Search"; "div"; "MobileNavigation"; "a"; "Logo";
       "span"; "div"; "div"; "SocialBadges"; "div"; "Button"; "Button"; "div";
       "div"; "MobileSearch"; "ModeToggle"]).
  { unfold Header.Header.
    destruct (env !! "NEXT_PUBLIC_SIGNIN_URL"); reflexivity. }
  rewrite H. repeat split; reflexivity.
Qed.

(** ** Header: range and growth of the opacities *)

Section Clamp.

Local Open Scope Q_scope.

Variables lo hi : Q.
Hypothesis lo_lt_hi : lo < hi.

Lemma clamp_bounds (v : Q) : lo <= Motion.clamp lo hi v <= hi.
Proof using lo_lt_hi.
  unfold Motion.clamp.
  destruct (Qle_bool v hi) eqn:E1; simpl; [|lra].
  apply Qle_bool_iff in E1.
  destruct (Qle_bool lo v) eqn:E2; simpl; [|lra].
  apply Qle_bool_iff in E2. lra.
Qed.

Lemma Qle_bool_false (x y : Q) : Qle_bool x y = false -> y < x.
Proof using Type.
  intros H. apply Qnot_le_lt. intros Hle.
  apply Qle_bool_iff in Hle. congruence.
Qed.

Lemma clamp_monotone (v w : Q) :
  v <= w -> Motion.clamp lo hi v <= Motion.clamp lo hi w.
Proof using lo_lt_hi.
  intros Hvw. unfold Motion.clamp.
  destruct (Qle_bool v hi) eqn:E1, (Qle_bool w hi) eqn:E2,
           (Qle_bool lo v) eqn:E3, (Qle_bool lo w) eqn:E4; simpl;
    repeat match goal with
           | H : Qle_bool _ _ = true |- _ => apply Qle_bool_iff in H
           | H : Qle_bool _ _ = false |- _ => apply Qle_bool_false in H
           end; lra.
Qed.

Lemma share_unit (v : Q) : 0 <= Scroll.share lo hi v <= 1.
Proof using lo_lt_hi.
  pose proof (clamp_bounds v) as Hc. unfold Scroll.share. split.
  - apply Qle_shift_div_l; lra.
  - apply Qle_shift_div_r; lra.
Qed.

Lemma share_monotone (v w : Q) :
  v <= w -> Scroll.share lo hi v <= Scroll.share lo hi w.
Proof using lo_lt_hi.
  intros Hvw. pose proof (clamp_monotone v w Hvw) as Hc.
  unfold Scroll.share, Qdiv. apply Qmult_le_compat_r; [lra|].
  apply Qinv_le_0_compat. lra.
Qed.

(** A two-point [useTransform] written with the share. *)
Lemma useTransform_share (a b v : Q) :
  Motion.useTransform v [lo; hi] [a; b] == a + (b - a) * Scroll.share lo hi v.
Proof using lo_lt_hi.
  unfold Motion.useTransform, Motion.mix, Scroll.share.
  rewrite progress_eq by assumption. reflexivity.
Qed.

End Clamp.

(** X8: at every scroll position, negative ones included, the light-mode
    opacity is between 0.5 and 0.9 and the dark-mode opacity between 0.2
    and 0.8, and the light-mode opacity is the larger of the two. *)
Theorem Header_opacity_range
    (props : Header.HeaderProps) (ref : option nat) (hooks : Header.Hooks)
    (env : gmap string string) :
  exists light dark : Q,
    root_style (Header.Header props ref hooks env)
    = [("--bg-opacity-light", light); ("--bg-opacity-dark", dark)]
    /\ (0.5 <= light <= 0.9)%Q
    /\ (0.2 <= dark <= 0.8)%Q
    /\ (dark < light)%Q.
Proof.
  assert (H072 : (0 < 72)%Q) by reflexivity.
  do 2 eexists. split; [reflexivity|].
  rewrite !(useTransform_share 0 72 H072).
  pose proof (share_unit 0 72 H072 (Header.useScroll_scrollY hooks)) as Hs.
  revert Hs. generalize (Scroll.share 0 72 (Header.useScroll_scrollY hooks)).
  intros p Hp. repeat split; lra.
Qed.

(** X9: scrolling further down never makes the background more
    transparent: of two renderings, the one at the larger scroll position
    has the larger or equal opacity, in light mode and in dark mode. *)
Theorem Header_opacity_grows_with_scroll
    (props : Header.HeaderProps) (ref : option nat)
    (hooks1 hooks2 : Header.Hooks) (env : gmap string string) :
  (Header.useScroll_scrollY hooks1 <= Header.useScroll_scrollY hooks2)%Q ->
  exists light1 dark1 light2 dark2 : Q,
    root_style (Header.Header props ref hooks1 env)
    = [("--bg-opacity-light", light1); ("--bg-opacity-dark", dark1)]
    /\ root_style (Header.Header props ref hooks2 env)
       = [("--bg-opacity-light", light2); ("--bg-opacity-dark", dark2)]
    /\ (light1 <= light2)%Q /\ (dark1 <= dark2)%Q.
Proof.
  intros Hscroll.
  assert (H072 : (0 < 72)%Q) by reflexivity.
  do 4 eexists. split; [reflexivity|]. split; [reflexivity|].
  rewrite !(useTransform_share 0 72 H072).
  pose proof (share_monotone 0 72 H072 _ _ Hscroll) as Hs.
  revert Hs.
  generalize (Scroll.share 0 72 (Header.useScroll_scrollY hooks1)),
             (Scroll.share 0 72 (Header.useScroll_scrollY hooks2)).
  intros p1 p2 Hp. split; lra.
Qed.

Lemma Header_opacity_grows_with_scroll_witness :
  exists light1 dark1 light2 dark2 : Q,
    root_style
      (Header.Header Inputs.no_props None (Inputs.hooks false false 18) ∅)
    = [("--bg-opacity-light", light1); ("--bg-opacity-dark", dark1)]
    /\ root_style
         (Header.Header Inputs.no_props None (Inputs.hooks false false 54) ∅)
       = [("--bg-opacity-light", light2); ("--bg-opacity-dark", dark2)]
    /\ (light1 <= light2)%Q /\ (dark1 <= dark2)%Q.
Proof.
  apply (Header_opacity_grows_with_scroll Inputs.no_props None
           (Inputs.hooks false false 18) (Inputs.hooks false false 54) ∅).
  discriminate.
Defined.

(** ** Header: the open flag *)

(** X11: the open flag of the mobile navigation never reaches the class
    string of the root element, and inside the mobile navigation it reaches
    nothing at all: two renderings that differ in that flag only are the
    same markup. *)
Theorem Header_open_flag_inside_navigation
    (props : Header.HeaderProps) (ref : option nat) (hooks : Header.Hooks)
    (isOpen' : bool) (env : gmap string string) :
  root_class (Header.Header props ref hooks env)
  = root_class
      (Header.Header props ref
         {| Header.useMobileNavigationStore_isOpen := isOpen';
            Header.useIsInsideMobileNavigation :=
              Header.useIsInsideMobileNavigation hooks;
            Header.useScroll_scrollY := Header.useScroll_scrollY hooks |}
         env)
  /\ (Header.useIsInsideMobileNavigation hooks = true ->
      Header.Header props ref hooks env
      = Header.Header props ref
          {| Header.useMobileNavigationStore_isOpen := isOpen';
             Header.useIsInsideMobileNavigation :=
               Header.useIsInsideMobileNavigation hooks;
             Header.useScroll_scrollY := Header.useScroll_scrollY hooks |}
          env).
Proof.
  split; [reflexivity|]. intros Hinside.
  unfold Header.Header. cbn [Header.useMobileNavigationStore_isOpen
    Header.useIsInsideMobileNavigation Header.useScroll_scrollY].
  rewrite Hinside. reflexivity.
Qed.

Lemma Header_open_flag_inside_navigation_witness :
  Header.Header Inputs.no_props None (Inputs.hooks true true 36)
    Inputs.env_production
  = Header.Header Inputs.no_props None (Inputs.hooks false true 36)
      Inputs.env_production.
Proof.
  destruct (Header_open_flag_inside_navigation Inputs.no_props None
              (Inputs.hooks true true 36) false Inputs.env_production)
    as [_ H].
  apply H. reflexivity.
Defined.
